(** * Simply Invest: the ledger, price oracle and credential store of
    [static/app.js], embedded as state-passing functions over the browser's
    localStorage.

    Conventions of the embedding.
    - A JavaScript number that the program stores (a balance, a price, a
      quantity) is an exact rational [Q]; the rounding of binary floating
      point is not modelled.  Every division the theorems rely on has a
      non-zero divisor.  The two numbers that arrive from a form field and
      are screened with [isNaN] have type [Number], which adds [NaN].
    - [localStorage] is a record of its three items, each absent or holding
      the value that [JSON.parse] gives back; [JSON.stringify] followed by
      [JSON.parse] is the identity on the records stored here.
    - [Math.random()] is an explicit argument: the value the call returns.
    - [String.prototype.toLowerCase] and the SHA-256 digest behind
      [hashPassword] belong to the host; they are the two fields of the
      class [Host], so every theorem holds whatever they compute. *)

From stdpp Require Import gmap strings list.
From Stdlib Require Import Ascii QArith Qround Qabs Lqa.

Local Open Scope Q_scope.

(** ** Numbers *)

Inductive Number : Type :=
| NaN
| Num (q : Q).

Definition Qltb (x y : Q) : bool := negb (Qle_bool y x).

(** [parseFloat(x.toFixed(2))].  [toFixed] works on the magnitude and puts
    the sign back; among the integers [n] with [n / 100] closest to the
    magnitude it takes the larger one; from [10^21] on it prints the number
    itself. *)
Definition toFixed2 (x : Q) : Q :=
  if Qle_bool (inject_Z (10 ^ 21)) (Qabs x) then x
  else
    let n := Qfloor (Qabs x * 100 + (1 # 2)) in
    if Qltb x 0 then - (n # 100) else n # 100.

(** ** Host functions *)

Class Host : Type := {
  toLowerCase : string -> string;
  hashPassword : string -> string;
}.

(** ** Data model *)

Record Holding : Type := {
  symbol : string;
  quantity : Q;
  priceAtPurchase : Q;
  investedAmount : Q;
}.

Record User : Type := {
  username : string;
  age : Q;
  passwordHash : string;
  coins : Q;
  portfolio : list Holding;
}.

Record Storage : Type := {
  item_users : option (list User);
  item_stockPrices : option (gmap string Q);
  item_currentUser : option string;
}.

Definition emptyStorage : Storage :=
  {| item_users := None; item_stockPrices := None; item_currentUser := None |}.

(** What an operation hands back: [{ success: true, ... }] with its extra
    fields, or [{ success: false }] with the message when there is one. *)
Inductive Result (A : Type) : Type :=
| Ok (fields : A)
| Err (message : option string).
Arguments Ok {A} fields.
Arguments Err {A} message.

Definition success {A : Type} (r : Result A) : bool :=
  match r with
  | Ok _ => true
  | Err _ => false
  end.

(** ** Operations on localStorage *)

Definition Op (A : Type) : Type := Storage -> A * Storage.

Definition ret {A : Type} (a : A) : Op A := fun ls => (a, ls).

Definition bind {A B : Type} (m : Op A) (k : A -> Op B) : Op B :=
  fun ls => let (a, ls') := m ls in k a ls'.

Declare Scope op_scope.
Delimit Scope op_scope with op.
Bind Scope op_scope with Op.
Notation "'let*' x := m 'in' k" := (bind m (fun x => k))
  (at level 10, x name, m at level 100, k at level 200) : op_scope.
Notation "m ;;; k" := (bind m (fun _ => k))
  (at level 100, k at level 200, right associativity) : op_scope.
Local Open Scope op_scope.

Definition run {A : Type} (m : Op A) (ls : Storage) : A * Storage := m ls.

Definition getUsers : Op (list User) :=
  fun ls => (default [] (item_users ls), ls).

Definition saveUsers (users : list User) : Op unit :=
  fun ls => (tt, {| item_users := Some users;
                    item_stockPrices := item_stockPrices ls;
                    item_currentUser := item_currentUser ls |}).

Definition getCurrentUser : Op (option string) :=
  fun ls => (item_currentUser ls, ls).

Definition setCurrentUser (name : string) : Op unit :=
  fun ls => (tt, {| item_users := item_users ls;
                    item_stockPrices := item_stockPrices ls;
                    item_currentUser := Some name |}).

Definition removeCurrentUser : Op unit :=
  fun ls => (tt, {| item_users := item_users ls;
                    item_stockPrices := item_stockPrices ls;
                    item_currentUser := None |}).

Definition getStockPrices : Op (gmap string Q) :=
  fun ls => (default ∅ (item_stockPrices ls), ls).

Definition saveStockPrices (prices : gmap string Q) : Op unit :=
  fun ls => (tt, {| item_users := item_users ls;
                    item_stockPrices := Some prices;
                    item_currentUser := item_currentUser ls |}).

(** [Array.prototype.findIndex], with [None] for -1. *)
Fixpoint findIndex {A : Type} (f : A -> bool) (l : list A) : option nat :=
  match l with
  | [] => None
  | x :: rest => if f x then Some O else S <$> findIndex f rest
  end.

(** ** Credential store and session accessor *)

Section Program.
Context `{Host}.

Definition sameNameIgnoringCase (name : string) (u : User) : bool :=
  String.eqb (toLowerCase (username u)) (toLowerCase name).

Definition registerUser (name : string) (age : Number) (password : string)
  : Op (Result unit) :=
  if String.eqb name EmptyString then ret (Err (Some "Username is required."%string))
  else
    match age with
    | NaN => ret (Err (Some "You must be at least 13 years old to register."%string))
    | Num years =>
      if Qltb years 13
      then ret (Err (Some "You must be at least 13 years old to register."%string))
      else
        let* users := getUsers in
        match find (sameNameIgnoringCase name) users with
        | Some _ => ret (Err (Some "Username already exists."%string))
        | None =>
          let passwordHash := hashPassword password in
          let newUser := {| username := name; age := years;
                            passwordHash := passwordHash;
                            coins := 100000; portfolio := [] |} in
          saveUsers (users ++ [newUser]) ;;;
          setCurrentUser name ;;;
          ret (Ok tt)
        end
    end.

Definition loginUser (name : string) (password : string) : Op (Result unit) :=
  let* users := getUsers in
  match find (sameNameIgnoringCase name) users with
  | None => ret (Err (Some "User not found."%string))
  | Some user =>
    let hash := hashPassword password in
    if negb (String.eqb hash (passwordHash user))
    then ret (Err (Some "Incorrect password."%string))
    else setCurrentUser (username user) ;;; ret (Ok tt)
  end.

Definition getCurrentUserObject : Op (option User) :=
  let* marker := getCurrentUser in
  match marker with
  | None => ret None
  | Some name =>
    if String.eqb name EmptyString then ret None
    else
      let* users := getUsers in
      ret (find (fun u => String.eqb (username u) name) users)
  end.

Definition updateUser (updatedUser : User) : Op unit :=
  let* users := getUsers in
  match findIndex (fun u => String.eqb (username u) (username updatedUser)) users with
  | Some idx => saveUsers (<[idx := updatedUser]> users)
  | None => ret tt
  end.

Definition logout : Op unit := removeCurrentUser.

(** ** Price oracle *)

(** The table [base] of [getStockPrice]. *)
Definition base (sym : string) : option Q :=
  if String.eqb sym "AAPL" then Some 150
  else if String.eqb sym "AMZN" then Some 3200
  else if String.eqb sym "TSLA" then Some 700
  else if String.eqb sym "GOOG" then Some 2800
  else if String.eqb sym "NFLX" then Some 500
  else if String.eqb sym "NVDA" then Some 450
  else if String.eqb sym "MSFT" then Some 350
  else if String.eqb sym "META" then Some 300
  else None.

(** [!prices[symbol]]: the entry is missing or is the number 0. *)
Definition falsy (entry : option Q) : bool :=
  match entry with
  | None => true
  | Some p => Qeq_bool p 0
  end.

(** [x || fallback] on a number that may be undefined. *)
Definition orElse (entry : option Q) (fallback : Q) : Q :=
  match entry with
  | None => fallback
  | Some p => if Qeq_bool p 0 then fallback else p
  end.

(** Reading [prices[symbol]] where the entry is known to be a number. *)
Definition entryValue (entry : option Q) : Q := default 0 entry.

Definition getStockPrice (sym : string) : Op Q :=
  let* prices := getStockPrices in
  if falsy (prices !! sym) then
    let prices' := <[sym := orElse (base sym) 100]> prices in
    saveStockPrices prices' ;;;
    ret (entryValue (prices' !! sym))
  else ret (entryValue (prices !! sym)).

(** [rnd] is the value of [Math.random()]. *)
Definition variationOf (rnd : Q) : Q := rnd * 0.1 - 0.05.

Definition clampPrice (newPrice : Q) : Q :=
  if Qltb newPrice 1 then 1 else newPrice.

Definition updateStockPrice (rnd : Q) (sym : string) : Op Q :=
  let* prices := getStockPrices in
  let* price :=
    (if falsy (prices !! sym) then getStockPrice sym
     else ret (entryValue (prices !! sym))) in
  let variation := variationOf rnd in
  let newPrice := clampPrice (price * (1 + variation)) in
  let prices' := <[sym := toFixed2 newPrice]> prices in
  saveStockPrices prices' ;;;
  ret (entryValue (prices' !! sym)).

(** ** Portfolio ledger *)

Definition withCoins (user : User) (c : Q) : User :=
  {| username := username user; age := age user;
     passwordHash := passwordHash user;
     coins := c; portfolio := portfolio user |}.

Definition withPortfolio (user : User) (p : list Holding) : User :=
  {| username := username user; age := age user;
     passwordHash := passwordHash user;
     coins := coins user; portfolio := p |}.

Definition investCoins (sym : string) (amount : Number)
  : Op (Result (Q * Q)) :=
  let* current := getCurrentUserObject in
  match current with
  | None => ret (Err (Some "Not logged in."%string))
  | Some user =>
    match amount with
    | NaN => ret (Err (Some "Please enter a valid amount."%string))
    | Num amount =>
      if Qle_bool amount 0
      then ret (Err (Some "Please enter a valid amount."%string))
      else if Qltb (coins user) amount
      then ret (Err (Some "You do not have enough coins."%string))
      else
        let* price := getStockPrice sym in
        let quantity := amount / price in
        let investment := {| symbol := sym; quantity := quantity;
                             priceAtPurchase := price;
                             investedAmount := amount |} in
        let user := withCoins user (toFixed2 (coins user - amount)) in
        let user := withPortfolio user (portfolio user ++ [investment]) in
        updateUser user ;;;
        ret (Ok (price, quantity))
    end
  end.

(** The callback that [updatePortfolio] maps over the holdings.  It
    assigns to [user.coins], so the balance is threaded through with the
    storage; [rnd] is the draw of the one [updateStockPrice] call. *)
Definition revalue (rnd : Q) (balance : Q) (inv : Holding)
  : Op (Q * Holding) :=
  let* newPrice := updateStockPrice rnd (symbol inv) in
  let oldPrice := priceAtPurchase inv in
  let pctChange := (newPrice - oldPrice) / oldPrice in
  let profitLoss := investedAmount inv * pctChange in
  let balance := toFixed2 (balance + profitLoss) in
  ret (balance, {| symbol := symbol inv; quantity := quantity inv;
                   priceAtPurchase := newPrice;
                   investedAmount := quantity inv * newPrice |}).

(** [user.portfolio.map(...)], left to right; the k-th call of the
    callback receives the draw [rnd k]. *)
Fixpoint revalueFrom (rnd : nat -> Q) (k : nat) (balance : Q)
    (invs : list Holding) : Op (Q * list Holding) :=
  match invs with
  | [] => ret (balance, [])
  | inv :: rest =>
    let* r := revalue (rnd k) balance inv in
    let* rs := revalueFrom rnd (S k) (fst r) rest in
    ret (fst rs, snd r :: snd rs)
  end.

Definition updatePortfolio (rnd : nat -> Q) : Op (Result unit) :=
  let* current := getCurrentUserObject in
  match current with
  | None => ret (Err None)
  | Some user =>
    let* r := revalueFrom rnd O (coins user) (portfolio user) in
    let user := withPortfolio (withCoins user (fst r)) (snd r) in
    updateUser user ;;;
    ret (Ok tt)
  end.

(** [index] is an integer; [rnd] is the draw of the price refresh. *)
Definition sellInvestment (rnd : Q) (index : Z) : Op (Result Q) :=
  let* current := getCurrentUserObject in
  match current with
  | None => ret (Err None)
  | Some user =>
    if (index <? 0)%Z || (index >=? Z.of_nat (length (portfolio user)))%Z
    then ret (Err None)
    else
      match portfolio user !! Z.to_nat index with
      | None => ret (Err None) (* not reached: the index is in range *)
      | Some inv =>
        let* currentPrice := updateStockPrice rnd (symbol inv) in
        let value := quantity inv * currentPrice in
        let user := withCoins user (toFixed2 (coins user + value)) in
        let user := withPortfolio user (delete (Z.to_nat index) (portfolio user)) in
        updateUser user ;;;
        ret (Ok value)
      end
  end.

End Program.

(** * Vocabulary of the statements *)

(** ** What is stored *)

Definition usersOf (ls : Storage) : list User := default [] (item_users ls).

Definition pricesOf (ls : Storage) : gmap string Q :=
  default ∅ (item_stockPrices ls).

(** The record that [getCurrentUserObject] resolves the session marker to. *)
Definition currentOf (ls : Storage) : option User :=
  fst (getCurrentUserObject ls).

(** The invariant of the price table: no stored price is below the floor. *)
Definition pricesFloor (ls : Storage) : Prop :=
  forall (sym : string) (p : Q), pricesOf ls !! sym = Some p -> 1 <= p.

(** ** The operations as calls *)

(** The entry points that the pages invoke, with their arguments; the
    draws of [Math.random] that a call consumes are among them. *)
Inductive Call : Type :=
| Register (name : string) (age : Number) (password : string)
| Login (name : string) (password : string)
| Buy (sym : string) (amount : Number)
| RevalueAll (rnd : nat -> Q)
| SellOne (rnd : Q) (index : Z).

Section Calls.
Context `{Host}.

(** Runs a call; the boolean is the [success] field of what it returns. *)
Definition perform (c : Call) (ls : Storage) : bool * Storage :=
  match c with
  | Register name age password =>
      let (r, ls') := registerUser name age password ls in (success r, ls')
  | Login name password =>
      let (r, ls') := loginUser name password ls in (success r, ls')
  | Buy sym amount =>
      let (r, ls') := investCoins sym amount ls in (success r, ls')
  | RevalueAll rnd =>
      let (r, ls') := updatePortfolio rnd ls in (success r, ls')
  | SellOne rnd index =>
      let (r, ls') := sellInvestment rnd index ls in (success r, ls')
  end.

(** The rejections that the operations document. *)
Inductive rejected (ls : Storage) : Call -> Prop :=
| missing_username age password :
    rejected ls (Register EmptyString age password)
| age_not_a_number name password :
    rejected ls (Register name NaN password)
| underage name years password :
    years < 13 -> rejected ls (Register name (Num years) password)
| duplicate_username name age password u :
    In u (usersOf ls) -> toLowerCase (username u) = toLowerCase name ->
    rejected ls (Register name age password)
| unknown_user name password :
    (forall u, In u (usersOf ls) -> toLowerCase (username u) <> toLowerCase name) ->
    rejected ls (Login name password)
| wrong_password name password user :
    find (sameNameIgnoringCase name) (usersOf ls) = Some user ->
    hashPassword password <> passwordHash user ->
    rejected ls (Login name password)
| amount_not_a_number sym :
    rejected ls (Buy sym NaN)
| amount_not_positive sym amount :
    amount <= 0 -> rejected ls (Buy sym (Num amount))
| insufficient_funds sym amount user :
    currentOf ls = Some user -> coins user < amount ->
    rejected ls (Buy sym (Num amount))
| index_out_of_range rnd index user :
    currentOf ls = Some user ->
    (index < 0 \/ Z.of_nat (length (portfolio user)) <= index)%Z ->
    rejected ls (SellOne rnd index).

(** The users list as [registerUser] builds it: no empty username, no two
    usernames equal up to case. *)
Definition usersWellFormed (users : list User) : Prop :=
  Forall (fun u => username u <> EmptyString) users /\
  List.NoDup (map (fun u => toLowerCase (username u)) users).




(** What every call preserves, starting from empty storage: a well-formed
    users list and a price table above the floor. *)
Definition storageWellFormed (ls : Storage) : Prop :=
  usersWellFormed (usersOf ls) /\ pricesFloor ls.

(** Storage after a sequence of calls made from empty storage. *)
Fixpoint performAll (calls : list Call) (ls : Storage) : Storage :=
  match calls with
  | [] => ls
  | c :: rest => performAll rest (snd (perform c ls))
  end.

End Calls.

(** ** A concrete host and a scenario, for evaluation *)

Definition lowerAscii (c : ascii) : ascii :=
  let n := nat_of_ascii c in
  if (65 <=? n)%nat && (n <=? 90)%nat then ascii_of_nat (n + 32) else c.

Fixpoint lowerString (s : string) : string :=
  match s with
  | EmptyString => EmptyString
  | String c rest => String (lowerAscii c) (lowerString rest)
  end.

(** A stand-in digest: any function of the password will do. *)
#[local] Instance demoHost : Host :=
  {| toLowerCase := lowerString;
     hashPassword := fun password => String.append "h:" password |}.

(** The scenario of the specification. *)

Definition aliceRecord : User :=
  {| username := "alice"; age := 20; passwordHash := hashPassword "pw";
     coins := 100000; portfolio := [] |}.

Definition aliceHolding : Holding :=
  {| symbol := "AAPL"; quantity := 1000 / 150; priceAtPurchase := 150;
     investedAmount := 1000 |}.

Definition aliceAfterBuy : User :=
  {| username := "alice"; age := 20; passwordHash := hashPassword "pw";
     coins := 9900000 # 100; portfolio := [aliceHolding] |}.

(** register "alice", age 20 *)
Definition aliceRegistered : Storage :=
  snd (registerUser "alice" (Num 20) "pw" emptyStorage).

(** then buy AAPL for 1000 at the seeded price 150 *)
Definition aliceInvested : Storage :=
  snd (investCoins "AAPL" (Num 1000) aliceRegistered).


(** or buy AAPL for 99000 and TSLA for 1000, then revalue with both draws
    equal to 0 *)
Definition aliceOverdrawn : Storage :=
  let bought :=
    snd (investCoins "TSLA" (Num 1000)
           (snd (investCoins "AAPL" (Num 99000) aliceRegistered))) in
  snd (updatePortfolio (fun _ => 0) bought).

(** ** The stock catalog and more vocabulary *)


(** The calls of the portfolio ledger. *)
Definition isLedgerCall (c : Call) : bool :=
  match c with
  | Buy _ _ | RevalueAll _ | SellOne _ _ => true
  | Register _ _ _ | Login _ _ => false
  end.




(** A second scenario: after alice's buy, bob registers (and is the current
    user). *)
Definition bobJoined : Storage :=
  snd (registerUser "bob" (Num 30) "pw2" aliceInvested).



(** * Verification *)

(** ** Rounding *)

Lemma Qltb_true (x y : Q) : Qltb x y = true <-> x < y.
Proof.
  unfold Qltb. rewrite negb_true_iff, <- not_true_iff_false, Qle_bool_iff.
  split; [apply Qnot_le_lt | apply Qlt_not_le].
Qed.

Lemma Qltb_false (x y : Q) : Qltb x y = false <-> y <= x.
Proof. unfold Qltb. rewrite negb_false_iff. apply Qle_bool_iff. Qed.




Lemma toFixed2_ge_1 (x : Q) : 1 <= x -> 1 <= toFixed2 x.
Proof.
  intros Hx. unfold toFixed2.
  destruct (Qle_bool _ (Qabs x)); [exact Hx |].
  assert (0 <= x) as Hx0 by lra.
  assert (Qltb x 0 = false) as -> by (apply Qltb_false; exact Hx0).
  assert (Qfloor 100 <= Qfloor (Qabs x * 100 + (1 # 2)))%Z as Hn.
  { apply Qfloor_resp_le. rewrite (Qabs_pos x Hx0). lra. }
  change (Qfloor 100) with 100%Z in Hn.
  revert Hn. generalize (Qfloor (Qabs x * 100 + (1 # 2))). intros n Hn.
  unfold Qle; simpl. lia.
Qed.


(** ** Searching the users list *)

Lemma find_findIndex {A : Type} (f : A -> bool) (l : list A) (x : A) :
  find f l = Some x ->
  exists i : nat, findIndex f l = Some i /\ l !! i = Some x /\ f x = true.
Proof.
  induction l as [| y l IH]; simpl; [discriminate |].
  destruct (f y) eqn:Hy.
  - intros [= ->]. exists O. auto.
  - intros Hfind. destruct (IH Hfind) as (i & -> & Hi & Hx).
    exists (S i). auto.
Qed.


Lemma find_app_fresh {A : Type} (f : A -> bool) (l : list A) (x : A) :
  find f l = None -> f x = true -> find f (l ++ [x]) = Some x.
Proof.
  induction l as [| y l IH]; simpl; intros Hnone Hx.
  - now rewrite Hx.
  - destruct (f y); [discriminate | auto].
Qed.

Lemma find_none_weaken {A : Type} (f g : A -> bool) (l : list A) :
  (forall x, g x = true -> f x = true) -> find f l = None -> find g l = None.
Proof.
  intros Hfg. induction l as [| y l IH]; simpl; [reflexivity |].
  destruct (f y) eqn:Hy; [discriminate |]. intros Hnone.
  destruct (g y) eqn:Hg; [| auto].
  apply Hfg in Hg. congruence.
Qed.

Lemma getCurrentUserObject_reads (ls : Storage) :
  getCurrentUserObject ls = (currentOf ls, ls).
Proof.
  unfold currentOf, getCurrentUserObject, bind, getCurrentUser, getUsers, ret.
  destruct (item_currentUser ls) as [name |]; [| reflexivity].
  destruct (String.eqb name EmptyString); reflexivity.
Qed.

Lemma currentOf_some (ls : Storage) (user : User) :
  currentOf ls = Some user ->
  item_currentUser ls = Some (username user) /\
  username user <> EmptyString /\
  find (fun u => String.eqb (username u) (username user)) (usersOf ls) = Some user.
Proof.
  unfold currentOf, getCurrentUserObject, bind, getCurrentUser, getUsers, ret.
  fold (usersOf ls).
  destruct (item_currentUser ls) as [name |]; simpl; [| discriminate].
  destruct (String.eqb name EmptyString) eqn:Hname; simpl; [discriminate |].
  intros Hfind.
  destruct (find_findIndex _ _ _ Hfind) as (i & _ & _ & Heq).
  apply String.eqb_eq in Heq. subst name.
  apply String.eqb_neq in Hname. auto.
Qed.

Lemma currentOf_none (ls : Storage) :
  item_currentUser ls = None \/
  (exists name, item_currentUser ls = Some name /\
                forall u, In u (usersOf ls) -> username u <> name) ->
  currentOf ls = None.
Proof.
  unfold currentOf, getCurrentUserObject, bind, getCurrentUser, getUsers, ret.
  fold (usersOf ls).
  intros [-> | (name & -> & Hnone)]; [reflexivity |].
  destruct (String.eqb name EmptyString); [reflexivity |]. simpl.
  match goal with
  | |- context [find ?f ?l] => destruct (find f l) as [u |] eqn:Hfind
  end; [| reflexivity].
  apply find_some in Hfind as [Hin Heq].
  apply String.eqb_eq in Heq. now apply Hnone in Hin.
Qed.




(** The price oracle writes the price table and nothing else. *)
Lemma getStockPrice_frame (sym : string) (ls : Storage) :
  item_users (snd (getStockPrice sym ls)) = item_users ls /\
  item_currentUser (snd (getStockPrice sym ls)) = item_currentUser ls.
Proof.
  unfold getStockPrice, bind, getStockPrices, saveStockPrices, ret.
  destruct (falsy _); simpl; auto.
Qed.

Lemma updateStockPrice_frame (rnd : Q) (sym : string) (ls : Storage) :
  item_users (snd (updateStockPrice rnd sym ls)) = item_users ls /\
  item_currentUser (snd (updateStockPrice rnd sym ls)) = item_currentUser ls.
Proof.
  unfold updateStockPrice, bind, getStockPrices, saveStockPrices, ret.
  destruct (falsy _); simpl; [| auto].
  destruct (getStockPrice sym ls) as [p ls1] eqn:Hget. simpl.
  pose proof (getStockPrice_frame sym ls) as Hframe.
  rewrite Hget in Hframe. exact Hframe.
Qed.



(** ** Price oracle *)

Lemma entryValue_insert (sym : string) (v : Q) (prices : gmap string Q) :
  entryValue (<[sym := v]> prices !! sym) = v.
Proof. now rewrite lookup_insert_eq. Qed.

(** [getStockPrice] returns the stored price when there is a non-zero one,
    and the seed otherwise. *)
Lemma getStockPrice_value (sym : string) (ls : Storage) :
  fst (getStockPrice sym ls) =
    if falsy (pricesOf ls !! sym) then orElse (base sym) 100
    else entryValue (pricesOf ls !! sym).
Proof.
  unfold getStockPrice, bind, getStockPrices, saveStockPrices, ret.
  fold (pricesOf ls).
  destruct (falsy _); simpl; [apply entryValue_insert | reflexivity].
Qed.


Lemma updateStockPrice_unfold (rnd : Q) (sym : string) (ls : Storage) :
  let p := fst (getStockPrice sym ls) in
  let r := toFixed2 (clampPrice (p * (1 + variationOf rnd))) in
  updateStockPrice rnd sym ls =
    (r, {| item_users := item_users ls;
           item_stockPrices := Some (<[sym := r]> (pricesOf ls));
           item_currentUser := item_currentUser ls |}).
Proof.
  intros p r. subst r p. rewrite getStockPrice_value.
  unfold updateStockPrice, bind, getStockPrices, saveStockPrices, ret.
  fold (pricesOf ls).
  destruct (falsy (pricesOf ls !! sym)) eqn:Hfalsy.
  - pose proof (getStockPrice_value sym ls) as Hv.
    pose proof (getStockPrice_frame sym ls) as [Hu Hc].
    rewrite Hfalsy in Hv.
    destruct (getStockPrice sym ls) as [p ls1]. simpl in *. subst p.
    rewrite entryValue_insert, Hu, Hc. reflexivity.
  - simpl. rewrite entryValue_insert. reflexivity.
Qed.

Lemma clampPrice_ge_1 (x : Q) : 1 <= clampPrice x.
Proof.
  unfold clampPrice. destruct (Qltb x 1) eqn:Hx; [lra |].
  now apply Qltb_false in Hx.
Qed.


Lemma base_ge_1 (sym : string) : 1 <= orElse (base sym) 100.
Proof.
  unfold base.
  repeat (destruct (String.eqb sym _); [vm_compute; discriminate |]).
  vm_compute; discriminate.
Qed.

(** Every draw of [Math.random] lies in [0, 1); the variations are then
    exactly the numbers of [-0.05, 0.05). *)
Lemma variationOf_range (rnd : Q) :
  0 <= rnd < 1 <-> - (0.05) <= variationOf rnd < 0.05.
Proof. unfold variationOf. split; intros [Hlo Hhi]; split; lra. Qed.

Lemma variationOf_onto (v : Q) : variationOf ((v + 0.05) * 10) == v.
Proof. unfold variationOf. lra. Qed.

Lemma pricesFloor_empty : pricesFloor emptyStorage.
Proof. intros sym p. unfold pricesOf; simpl. now rewrite lookup_empty. Qed.


Lemma getStockPrice_floor (sym : string) (ls : Storage) :
  pricesFloor ls -> pricesFloor (snd (getStockPrice sym ls)).
Proof.
  intros Hfloor. unfold getStockPrice, bind, getStockPrices, saveStockPrices, ret.
  fold (pricesOf ls).
  destruct (falsy _); simpl; [| exact Hfloor].
  intros s p. unfold pricesOf; simpl. rewrite lookup_insert.
  case_decide; [| apply Hfloor].
  intros [= <-]. apply base_ge_1.
Qed.

Lemma updateStockPrice_floor (rnd : Q) (sym : string) (ls : Storage) :
  pricesFloor ls -> pricesFloor (snd (updateStockPrice rnd sym ls)).
Proof.
  intros Hfloor. rewrite updateStockPrice_unfold. simpl.
  intros s p. unfold pricesOf at 1; simpl. rewrite lookup_insert.
  case_decide; [| apply Hfloor].
  intros [= <-]. apply toFixed2_ge_1, clampPrice_ge_1.
Qed.


(** ** Portfolio ledger *)



(** C6.  A logged-in user selling at an index below 0 or not below the
    number of holdings: the call reports failure and storage (holdings,
    balance, price table) is what it was. *)
Theorem sellInvestment_out_of_range (rnd : Q) (index : Z) (ls : Storage) (user : User) :
  currentOf ls = Some user ->
  (index < 0 \/ Z.of_nat (length (portfolio user)) <= index)%Z ->
  sellInvestment rnd index ls = (Err None, ls).
Proof.
  intros Hcur Hrange.
  unfold sellInvestment, bind. rewrite getCurrentUserObject_reads, Hcur.
  assert ((index <? 0)%Z || (index >=? Z.of_nat (length (portfolio user)))%Z = true)
    as ->; [| reflexivity].
  apply orb_true_iff. destruct Hrange; [left | right]; lia.
Qed.


(** C9.  Buying or selling with no session marker, or with a marker that
    is the username of no stored record: the call reports failure and the
    users list, the price table and the marker are what they were. *)
Theorem ledger_requires_session (sym : string) (amount : Number) (rnd : Q)
    (index : Z) (ls : Storage) :
  item_currentUser ls = None \/
  (exists name, item_currentUser ls = Some name /\
                forall u, In u (usersOf ls) -> username u <> name) ->
  investCoins sym amount ls = (Err (Some "Not logged in."%string), ls) /\
  sellInvestment rnd index ls = (Err None, ls).
Proof.
  intros Hsession. apply currentOf_none in Hsession.
  unfold investCoins, sellInvestment, bind.
  rewrite getCurrentUserObject_reads, Hsession. split; reflexivity.
Qed.


(** ** Rejections *)

Section Rejections.
Context `{Host}.

Lemma find_is_some {A : Type} (f : A -> bool) (l : list A) (x : A) :
  In x l -> f x = true -> exists y, find f l = Some y.
Proof.
  intros Hin Hx. destruct (find f l) as [y |] eqn:Hfind; [eauto |].
  pose proof (find_none f l Hfind x Hin). congruence.
Qed.

Lemma registerUser_failure (name : string) (age : Number) (password : string)
    (ls : Storage) :
  success (fst (registerUser name age password ls)) = false ->
  snd (registerUser name age password ls) = ls.
Proof.
  unfold registerUser, bind, getUsers, ret.
  destruct (String.eqb name EmptyString); [reflexivity |].
  destruct age as [| years]; [reflexivity |].
  destruct (Qltb years 13); [reflexivity |].
  destruct (find _ _); [reflexivity | discriminate].
Qed.

Lemma loginUser_failure (name password : string) (ls : Storage) :
  success (fst (loginUser name password ls)) = false ->
  snd (loginUser name password ls) = ls.
Proof.
  unfold loginUser, bind, getUsers, ret.
  destruct (find _ _) as [user |]; [| reflexivity].
  destruct (negb _); [reflexivity | discriminate].
Qed.

Lemma investCoins_failure (sym : string) (amount : Number) (ls : Storage) :
  success (fst (investCoins sym amount ls)) = false ->
  snd (investCoins sym amount ls) = ls.
Proof.
  unfold investCoins, bind, ret. rewrite getCurrentUserObject_reads.
  destruct (currentOf ls) as [user |]; [| reflexivity].
  destruct amount as [| a]; [reflexivity |].
  destruct (Qle_bool a 0); [reflexivity |].
  destruct (Qltb (coins user) a); [reflexivity |].
  destruct (getStockPrice sym ls) as [price ls1].
  destruct (updateUser _ ls1). discriminate.
Qed.

Lemma updatePortfolio_failure (rnd : nat -> Q) (ls : Storage) :
  success (fst (updatePortfolio rnd ls)) = false ->
  snd (updatePortfolio rnd ls) = ls.
Proof.
  unfold updatePortfolio, bind, ret. rewrite getCurrentUserObject_reads.
  destruct (currentOf ls) as [user |]; [| reflexivity].
  destruct (revalueFrom rnd O (coins user) (portfolio user) ls) as [r ls1].
  destruct (updateUser _ ls1). discriminate.
Qed.

Lemma sellInvestment_failure (rnd : Q) (index : Z) (ls : Storage) :
  success (fst (sellInvestment rnd index ls)) = false ->
  snd (sellInvestment rnd index ls) = ls.
Proof.
  unfold sellInvestment, bind, ret. rewrite getCurrentUserObject_reads.
  destruct (currentOf ls) as [user |]; [| reflexivity].
  destruct (_ || _); [reflexivity |].
  destruct (portfolio user !! Z.to_nat index) as [inv |]; [| reflexivity].
  destruct (updateStockPrice rnd (symbol inv) ls) as [price ls1].
  destruct (updateUser _ ls1). discriminate.
Qed.

Lemma perform_failure (c : Call) (ls : Storage) :
  fst (perform c ls) = false -> snd (perform c ls) = ls.
Proof.
  destruct c as [name age pw | name pw | sym amount | rnd | rnd index]; simpl.
  - pose proof (registerUser_failure name age pw ls) as Hnoop.
    destruct (registerUser name age pw ls); exact Hnoop.
  - pose proof (loginUser_failure name pw ls) as Hnoop.
    destruct (loginUser name pw ls); exact Hnoop.
  - pose proof (investCoins_failure sym amount ls) as Hnoop.
    destruct (investCoins sym amount ls); exact Hnoop.
  - pose proof (updatePortfolio_failure rnd ls) as Hnoop.
    destruct (updatePortfolio rnd ls); exact Hnoop.
  - pose proof (sellInvestment_failure rnd index ls) as Hnoop.
    destruct (sellInvestment rnd index ls); exact Hnoop.
Qed.

Lemma registerUser_duplicate (name : string) (age : Number) (password : string)
    (ls : Storage) (u : User) :
  In u (usersOf ls) ->
  toLowerCase (username u) = toLowerCase name ->
  success (fst (registerUser name age password ls)) = false.
Proof.
  intros Hin Hsame.
  unfold registerUser, bind, getUsers, ret. fold (usersOf ls).
  destruct (String.eqb name EmptyString); [reflexivity |].
  destruct age as [| years]; [reflexivity |].
  destruct (Qltb years 13); [reflexivity |]. cbv beta iota. fold (usersOf ls).
  destruct (find_is_some (sameNameIgnoringCase name) (usersOf ls) u Hin)
    as [v ->]; [| reflexivity].
  unfold sameNameIgnoringCase. rewrite Hsame. apply String.eqb_refl.
Qed.

Lemma rejected_fails (c : Call) (ls : Storage) :
  rejected ls c -> fst (perform c ls) = false.
Proof.
  intros Hrej.
  destruct Hrej as [age pw | name pw | name years pw Hyears
                   | name age pw u Hin Hsame | name pw Hnone
                   | name pw user Hfind Hhash | sym | sym a Ha
                   | sym a user Hcur Hfunds | rnd index user Hcur Hrange];
    simpl.
  - reflexivity.
  - unfold registerUser. destruct (String.eqb name EmptyString); reflexivity.
  - unfold registerUser. destruct (String.eqb name EmptyString); [reflexivity |].
    apply Qltb_true in Hyears. now rewrite Hyears.
  - pose proof (registerUser_duplicate name age pw ls u Hin Hsame) as Hfail.
    destruct (registerUser name age pw ls); exact Hfail.
  - unfold loginUser, bind, getUsers, ret. cbv beta iota. fold (usersOf ls).
    destruct (find _ (usersOf ls)) as [u |] eqn:Hfind; [| reflexivity].
    apply find_some in Hfind as [Hin Hsame].
    apply String.eqb_eq in Hsame. now apply Hnone in Hin.
  - unfold loginUser, bind, getUsers, ret. cbv beta iota. fold (usersOf ls).
    rewrite Hfind. apply String.eqb_neq in Hhash. now rewrite Hhash.
  - unfold investCoins, bind, ret. rewrite getCurrentUserObject_reads.
    destruct (currentOf ls); reflexivity.
  - unfold investCoins, bind, ret. rewrite getCurrentUserObject_reads.
    destruct (currentOf ls); [| reflexivity].
    apply Qle_bool_iff in Ha. now rewrite Ha.
  - unfold investCoins, bind, ret. rewrite getCurrentUserObject_reads, Hcur.
    destruct (Qle_bool a 0); [reflexivity |].
    apply Qltb_true in Hfunds. now rewrite Hfunds.
  - unfold sellInvestment, bind, ret. rewrite getCurrentUserObject_reads, Hcur.
    assert ((index <? 0)%Z || (index >=? Z.of_nat (length (portfolio user)))%Z = true)
      as ->; [| reflexivity].
    apply orb_true_iff. destruct Hrange; [left | right]; lia.
Qed.

(** C4.  A call that reports failure leaves storage (the users list, the
    price table and the session marker) exactly as it was; and each of the
    documented rejections (register without username, under 13 or with a
    taken username; login of an unknown user or with a wrong password; buy
    with an invalid or unaffordable amount; sell at an index out of range)
    does report failure. *)
Theorem failed_call_is_noop (c : Call) (ls : Storage) :
  (rejected ls c -> fst (perform c ls) = false) /\
  (fst (perform c ls) = false -> snd (perform c ls) = ls).
Proof. split; [apply rejected_fails | apply perform_failure]. Qed.

(** C8.  Registering a username that matches a stored record's username
    up to case: the call fails, whatever the casing of the request, and
    storage, so every stored record, is what it was; when the username is
    present and the age admissible, the failure is the duplicate-username
    one. *)
Theorem registerUser_rejects_duplicate (name : string) (age : Number)
    (password : string) (ls : Storage) (u : User) :
  In u (usersOf ls) ->
  toLowerCase (username u) = toLowerCase name ->
  success (fst (registerUser name age password ls)) = false /\
  snd (registerUser name age password ls) = ls /\
  usersOf (snd (registerUser name age password ls)) = usersOf ls /\
  (forall years, name <> EmptyString -> age = Num years -> 13 <= years ->
     fst (registerUser name age password ls)
       = Err (Some "Username already exists."%string)).
Proof.
  intros Hin Hsame.
  pose proof (registerUser_duplicate name age password ls u Hin Hsame) as Hfail.
  pose proof (registerUser_failure name age password ls Hfail) as Hnoop.
  split; [exact Hfail |]. split; [exact Hnoop |].
  split; [now rewrite Hnoop |].
  intros years Hname -> Hyears.
  unfold registerUser, bind, getUsers, ret. fold (usersOf ls).
  apply String.eqb_neq in Hname. rewrite Hname.
  apply Qltb_false in Hyears. rewrite Hyears. cbv beta iota. fold (usersOf ls).
  destruct (find_is_some (sameNameIgnoringCase name) (usersOf ls) u Hin)
    as [v ->]; [| reflexivity].
  unfold sameNameIgnoringCase. rewrite Hsame. apply String.eqb_refl.
Qed.

End Rejections.

(** ** Sessions *)

Section Sessions.
Context `{Host}.

Lemma find_unique_key (key : User -> string) (l : list User) (u : User) :
  List.NoDup (map key l) -> In u l ->
  find (fun x => String.eqb (key x) (key u)) l = Some u.
Proof.
  induction l as [| v rest IH]; simpl; [intros _ [] |].
  intros Hnodup Hin. apply NoDup_cons_iff in Hnodup as [Hfresh Hrest].
  destruct (String.eqb (key v) (key u)) eqn:Hkey.
  - destruct Hin as [-> | Hin]; [reflexivity |].
    apply String.eqb_eq in Hkey. exfalso. apply Hfresh.
    rewrite Hkey. now apply in_map.
  - destruct Hin as [-> | Hin]; [| auto].
    now rewrite String.eqb_refl in Hkey.
Qed.

Lemma usersWellFormed_names (users : list User) :
  usersWellFormed users -> List.NoDup (map username users).
Proof.
  intros [_ Hnodup]. apply (NoDup_map_inv toLowerCase).
  now rewrite map_map.
Qed.

(** C10.  With a well-formed users list, a stored user [u] and a name that
    equals [u]'s username up to case: the login succeeds exactly when the
    password hashes to [u]'s stored hash, and then the session marker is
    [u]'s username as stored, which [getCurrentUserObject] resolves to the
    record [u]. *)
Theorem loginUser_marks_stored_name (name password : string) (ls : Storage)
    (u : User) :
  usersWellFormed (usersOf ls) ->
  In u (usersOf ls) ->
  toLowerCase name = toLowerCase (username u) ->
  let ls' := snd (loginUser name password ls) in
  (success (fst (loginUser name password ls)) = true <->
     hashPassword password = passwordHash u) /\
  (success (fst (loginUser name password ls)) = true ->
     item_currentUser ls' = Some (username u) /\
     currentOf ls' = Some u /\
     usersOf ls' = usersOf ls /\
     item_stockPrices ls' = item_stockPrices ls).
Proof.
  intros Hwf Hin Hsame ls'. subst ls'.
  assert (find (sameNameIgnoringCase name) (usersOf ls) = Some u) as Hfind.
  { unfold sameNameIgnoringCase. rewrite Hsame.
    apply (find_unique_key (fun x => toLowerCase (username x))); [apply Hwf | exact Hin]. }
  pose proof (find_unique_key username _ u (usersWellFormed_names _ Hwf) Hin)
    as Hexact.
  assert (username u <> EmptyString) as Hname.
  { destruct Hwf as [Hnames _]. exact (proj1 (List.Forall_forall _ _) Hnames u Hin). }
  unfold loginUser, bind, getUsers, ret. cbv beta iota. fold (usersOf ls).
  rewrite Hfind.
  destruct (String.eqb (hashPassword password) (passwordHash u)) eqn:Hhash; simpl.
  - apply String.eqb_eq in Hhash. split; [tauto |]. intros _.
    split; [reflexivity |]. split; [| auto].
    unfold currentOf, getCurrentUserObject, bind, getCurrentUser, getUsers, ret.
    simpl. fold (usersOf ls).
    apply String.eqb_neq in Hname. rewrite Hname. exact Hexact.
  - apply String.eqb_neq in Hhash. split; [| discriminate].
    split; [discriminate | tauto].
Qed.

End Sessions.

(** ** The balance after an accepted call *)

Section Balance.
Context `{Host}.


End Balance.

(** ** Reachable storage *)

Section Reachable.
Context `{Host}.

Lemma usersWellFormed_by_names (users users' : list User) :
  map username users' = map username users ->
  usersWellFormed users -> usersWellFormed users'.
Proof.
  intros Hnames [Hnonempty Hnodup]. split.
  - apply (Forall_map username (fun n => n <> EmptyString)).
    rewrite Hnames. now apply Forall_map.
  - rewrite <- (map_map username toLowerCase), Hnames, map_map. exact Hnodup.
Qed.

Lemma map_insert_same_key {A K : Type} (key : A -> K) (l : list A) (i : nat)
    (x y : A) :
  l !! i = Some y -> key x = key y -> map key (<[i := x]> l) = map key l.
Proof.
  revert i. induction l as [| z l IH]; intros [| i]; simpl; try discriminate.
  - intros [= ->] ->. reflexivity.
  - intros Hy Hkey. f_equal. now apply IH.
Qed.

Lemma findIndex_lookup {A : Type} (f : A -> bool) (l : list A) (i : nat) :
  findIndex f l = Some i -> exists y, l !! i = Some y /\ f y = true.
Proof.
  revert i. induction l as [| z l IH]; simpl; [discriminate |].
  intros i. destruct (f z) eqn:Hz.
  - intros [= <-]. eauto.
  - destruct (findIndex f l) as [j |]; [| discriminate].
    intros [= <-]. simpl. now apply IH.
Qed.

Lemma updateUser_frame (u : User) (ls : Storage) :
  let ls' := snd (updateUser u ls) in
  map username (usersOf ls') = map username (usersOf ls) /\
  item_stockPrices ls' = item_stockPrices ls /\
  item_currentUser ls' = item_currentUser ls.
Proof.
  unfold updateUser, bind, getUsers, saveUsers, ret. cbv beta iota zeta.
  fold (usersOf ls).
  destruct (findIndex _ (usersOf ls)) as [i |] eqn:Hi; simpl; [| auto].
  split; [| auto].
  apply findIndex_lookup in Hi as (y & Hy & Hname).
  apply String.eqb_eq in Hname.
  unfold usersOf at 1; simpl. now apply (map_insert_same_key username _ _ _ y).
Qed.

Lemma pricesFloor_ext (ls ls' : Storage) :
  item_stockPrices ls' = item_stockPrices ls -> pricesFloor ls -> pricesFloor ls'.
Proof. unfold pricesFloor, pricesOf. now intros ->. Qed.

Lemma usersOf_ext (ls ls' : Storage) :
  item_users ls' = item_users ls -> usersOf ls' = usersOf ls.
Proof. unfold usersOf. now intros ->. Qed.

Lemma updateUser_wellFormed (u : User) (ls : Storage) :
  storageWellFormed ls -> storageWellFormed (snd (updateUser u ls)).
Proof.
  intros [Husers Hprices].
  destruct (updateUser_frame u ls) as (Hnames & Hp & _). split.
  - exact (usersWellFormed_by_names _ _ Hnames Husers).
  - exact (pricesFloor_ext _ _ Hp Hprices).
Qed.

Ltac store_wellFormed ls1 Hwf1 :=
  match goal with
  | |- context [updateUser ?u ls1] =>
      pose proof (updateUser_wellFormed u ls1 Hwf1) as Hwf2;
      destruct (updateUser u ls1) as [[] ls2]
  end.

Lemma getStockPrice_wellFormed (sym : string) (ls : Storage) :
  storageWellFormed ls -> storageWellFormed (snd (getStockPrice sym ls)).
Proof.
  intros [Husers Hprices]. split; [| now apply getStockPrice_floor].
  rewrite (usersOf_ext ls); [exact Husers | apply getStockPrice_frame].
Qed.

Lemma updateStockPrice_wellFormed (rnd : Q) (sym : string) (ls : Storage) :
  storageWellFormed ls -> storageWellFormed (snd (updateStockPrice rnd sym ls)).
Proof.
  intros [Husers Hprices]. split; [| now apply updateStockPrice_floor].
  rewrite (usersOf_ext ls); [exact Husers | apply updateStockPrice_frame].
Qed.

Lemma revalueFrom_wellFormed (rnd : nat -> Q) (invs : list Holding) :
  forall (k : nat) (balance : Q) (ls : Storage),
    storageWellFormed ls ->
    storageWellFormed (snd (revalueFrom rnd k balance invs ls)).
Proof.
  induction invs as [| inv rest IH]; intros k balance ls Hwf; [exact Hwf |].
  simpl. unfold revalue, bind, ret.
  pose proof (updateStockPrice_wellFormed (rnd k) (symbol inv) ls Hwf) as Hwf1.
  destruct (updateStockPrice (rnd k) (symbol inv) ls) as [price ls1].
  simpl in Hwf1 |- *.
  match goal with
  | |- context [revalueFrom rnd (S k) ?b rest ls1] =>
      pose proof (IH (S k) b ls1 Hwf1) as Hwf2;
      destruct (revalueFrom rnd (S k) b rest ls1) as [rs ls2]
  end.
  exact Hwf2.
Qed.

Lemma registerUser_wellFormed (name : string) (age : Number) (password : string)
    (ls : Storage) :
  storageWellFormed ls ->
  storageWellFormed (snd (registerUser name age password ls)).
Proof.
  intros Hwf. unfold registerUser, bind, getUsers, ret.
  destruct (String.eqb name EmptyString) eqn:Hname; [exact Hwf |].
  destruct age as [| years]; [exact Hwf |].
  destruct (Qltb years 13); [exact Hwf |]. cbv beta iota.
  fold (usersOf ls).
  destruct (find (sameNameIgnoringCase name) (usersOf ls)) eqn:Hfind;
    [exact Hwf |].
  destruct Hwf as [[Hnonempty Hnodup] Hprices]. simpl.
  split; [| exact Hprices]. unfold usersOf at 1 2; simpl. fold (usersOf ls).
  split.
  - apply Forall_app. split; [exact Hnonempty |].
    constructor; [| constructor]. simpl. now apply String.eqb_neq.
  - rewrite map_app. simpl. apply List.NoDup_app; [exact Hnodup | |].
    + constructor; [intros [] | constructor].
    + intros lowered Hin [<- | []].
      apply in_map_iff in Hin as (u & Hsame & Hin).
      pose proof (find_none _ _ Hfind u Hin) as Hdiff.
      unfold sameNameIgnoringCase in Hdiff.
      rewrite Hsame, String.eqb_refl in Hdiff. discriminate.
Qed.

(** Every call keeps storage well formed. *)
Lemma perform_wellFormed (c : Call) (ls : Storage) :
  storageWellFormed ls -> storageWellFormed (snd (perform c ls)).
Proof.
  intros Hwf.
  destruct c as [name age pw | name pw | sym amount | rnd | rnd index]; simpl.
  - pose proof (registerUser_wellFormed name age pw ls Hwf) as Hwf'.
    destruct (registerUser name age pw ls); exact Hwf'.
  - unfold loginUser, bind, getUsers, ret. cbv beta iota.
    destruct (find _ _) as [user |]; [| exact Hwf].
    destruct (negb _); exact Hwf.
  - unfold investCoins, bind, ret. rewrite getCurrentUserObject_reads.
    destruct (currentOf ls) as [user |]; [| exact Hwf].
    destruct amount as [| a]; [exact Hwf |].
    destruct (Qle_bool a 0); [exact Hwf |].
    destruct (Qltb (coins user) a); [exact Hwf |].
    pose proof (getStockPrice_wellFormed sym ls Hwf) as Hwf1.
    destruct (getStockPrice sym ls) as [price ls1].
    store_wellFormed ls1 Hwf1.
    exact Hwf2.
  - unfold updatePortfolio, bind, ret. rewrite getCurrentUserObject_reads.
    destruct (currentOf ls) as [user |]; [| exact Hwf].
    pose proof (revalueFrom_wellFormed rnd (portfolio user) O (coins user) ls Hwf)
      as Hwf1.
    destruct (revalueFrom rnd O (coins user) (portfolio user) ls) as [r ls1].
    store_wellFormed ls1 Hwf1.
    exact Hwf2.
  - unfold sellInvestment, bind, ret. rewrite getCurrentUserObject_reads.
    destruct (currentOf ls) as [user |]; [| exact Hwf].
    destruct (_ || _); [exact Hwf |].
    destruct (portfolio user !! Z.to_nat index) as [inv |]; [| exact Hwf].
    pose proof (updateStockPrice_wellFormed rnd (symbol inv) ls Hwf) as Hwf1.
    destruct (updateStockPrice rnd (symbol inv) ls) as [price ls1].
    store_wellFormed ls1 Hwf1.
    exact Hwf2.
Qed.

Lemma emptyStorage_wellFormed : storageWellFormed emptyStorage.
Proof.
  split; [| apply pricesFloor_empty].
  split; simpl; constructor.
Qed.

Lemma performAll_wellFormed (calls : list Call) (ls : Storage) :
  storageWellFormed ls -> storageWellFormed (performAll calls ls).
Proof.
  revert ls. induction calls as [| c rest IH]; intros ls Hwf; [exact Hwf |].
  simpl. apply IH, perform_wellFormed, Hwf.
Qed.

End Reachable.

(** ** The scenario of the specification, evaluated *)

Example scenario_register :
  currentOf aliceRegistered = Some aliceRecord.
Proof. reflexivity. Qed.

Example scenario_buy :
  fst (investCoins "AAPL" (Num 1000) aliceRegistered) = Ok (150, 1000 / 150)
  /\ currentOf aliceInvested = Some aliceAfterBuy.
Proof. split; vm_compute; reflexivity. Qed.

Example scenario_sell :
  exists u, currentOf (snd (sellInvestment 0.5 0 aliceInvested)) = Some u /\
            coins u == 100000 /\ portfolio u = [].
Proof. eexists. split; [vm_compute; reflexivity |]. split; reflexivity. Qed.



(** Once the balance is negative, an accepted sale need not bring it
    back: selling the TSLA holding of the overdrawn account. *)
Example sell_after_overdraw :
  fst (perform (SellOne 0 1) aliceOverdrawn) = true /\
  (exists u, currentOf aliceOverdrawn = Some u /\ coins u == - (5000)) /\
  (exists u, currentOf (snd (perform (SellOne 0 1) aliceOverdrawn)) = Some u /\
             coins u == - (4097.5)).
Proof.
  split; [vm_compute; reflexivity |].
  split; eexists; (split; [vm_compute; reflexivity | reflexivity]).
Qed.




Lemma failed_call_is_noop_witness :
  rejected aliceRegistered (Buy "AAPL" (Num 200000)) /\
  fst (perform (Buy "AAPL" (Num 200000)) aliceRegistered) = false /\
  snd (perform (Buy "AAPL" (Num 200000)) aliceRegistered) = aliceRegistered.
Proof.
  assert (rejected aliceRegistered (Buy "AAPL" (Num 200000))) as Hrej.
  { apply (insufficient_funds _ _ _ aliceRecord); reflexivity. }
  destruct (failed_call_is_noop (Buy "AAPL" (Num 200000)) aliceRegistered)
    as [Hfails Hnoop].
  split; [exact Hrej |]. split; [exact (Hfails Hrej) |].
  exact (Hnoop (Hfails Hrej)).
Defined.


Lemma sellInvestment_out_of_range_witness :
  currentOf aliceInvested = Some aliceAfterBuy /\
  (5 < 0 \/ Z.of_nat (length (portfolio aliceAfterBuy)) <= 5)%Z /\
  sellInvestment 0.5 5 aliceInvested = (Err None, aliceInvested).
Proof.
  assert (currentOf aliceInvested = Some aliceAfterBuy) as Hcur
    by (vm_compute; reflexivity).
  assert (5 < 0 \/ Z.of_nat (length (portfolio aliceAfterBuy)) <= 5)%Z
    as Hrange by (right; simpl; lia).
  split; [exact Hcur |]. split; [exact Hrange |].
  exact (sellInvestment_out_of_range 0.5 5 aliceInvested aliceAfterBuy
           Hcur Hrange).
Defined.


Lemma registerUser_rejects_duplicate_witness :
  In aliceRecord (usersOf aliceRegistered) /\
  toLowerCase (username aliceRecord) = toLowerCase "ALICE" /\
  success (fst (registerUser "ALICE" (Num 30) "other" aliceRegistered)) = false /\
  snd (registerUser "ALICE" (Num 30) "other" aliceRegistered) = aliceRegistered.
Proof.
  assert (In aliceRecord (usersOf aliceRegistered)) as Hin by (left; reflexivity).
  assert (toLowerCase (username aliceRecord) = toLowerCase "ALICE") as Hsame
    by reflexivity.
  split; [exact Hin |]. split; [exact Hsame |].
  destruct (registerUser_rejects_duplicate "ALICE" (Num 30) "other"
              aliceRegistered aliceRecord Hin Hsame) as (Hfail & Hnoop & _).
  split; [exact Hfail | exact Hnoop].
Defined.

Lemma ledger_requires_session_witness :
  (item_currentUser emptyStorage = None \/
   exists name, item_currentUser emptyStorage = Some name /\
                forall u, In u (usersOf emptyStorage) -> username u <> name) /\
  investCoins "AAPL" (Num 10) emptyStorage
    = (Err (Some "Not logged in."%string), emptyStorage) /\
  sellInvestment 0.5 0 emptyStorage = (Err None, emptyStorage).
Proof.
  split; [left; reflexivity |].
  exact (ledger_requires_session "AAPL" (Num 10) 0.5 0 emptyStorage
           (or_introl eq_refl)).
Defined.

Lemma loginUser_marks_stored_name_witness :
  usersWellFormed (usersOf aliceRegistered) /\
  In aliceRecord (usersOf aliceRegistered) /\
  toLowerCase "ALICE" = toLowerCase (username aliceRecord) /\
  success (fst (loginUser "ALICE" "pw" aliceRegistered)) = true /\
  item_currentUser (snd (loginUser "ALICE" "pw" aliceRegistered))
    = Some "alice"%string /\
  currentOf (snd (loginUser "ALICE" "pw" aliceRegistered)) = Some aliceRecord.
Proof.
  assert (usersWellFormed (usersOf aliceRegistered)) as Hwf.
  { split; simpl.
    - constructor; [discriminate | constructor].
    - constructor; [intros [] | constructor]. }
  assert (In aliceRecord (usersOf aliceRegistered)) as Hin by (left; reflexivity).
  assert (toLowerCase "ALICE" = toLowerCase (username aliceRecord)) as Hsame
    by reflexivity.
  split; [exact Hwf |]. split; [exact Hin |]. split; [exact Hsame |].
  destruct (loginUser_marks_stored_name "ALICE" "pw" aliceRegistered
              aliceRecord Hwf Hin Hsame) as [Hiff Hmarks].
  pose proof (proj2 Hiff eq_refl) as Hok.
  destruct (Hmarks Hok) as (Hmarker & Hcur & _).
  split; [exact Hok |]. split; [exact Hmarker | exact Hcur].
Defined.

(** * Further properties of the code *)

(** ** Rounding to two decimals *)








(** ** Outcomes of the ledger calls *)





Lemma registerUser_outcome `{Host} (name : string) (years : Q) (password : string)
    (ls : Storage) :
  name <> EmptyString ->
  13 <= years ->
  (forall u, In u (usersOf ls) -> toLowerCase (username u) <> toLowerCase name) ->
  let newUser := {| username := name; age := years;
                    passwordHash := hashPassword password;
                    coins := 100000; portfolio := [] |} in
  registerUser name (Num years) password ls =
    (Ok tt, {| item_users := Some (usersOf ls ++ [newUser]);
               item_stockPrices := item_stockPrices ls;
               item_currentUser := Some name |}) /\
  currentOf (snd (registerUser name (Num years) password ls)) = Some newUser.
Proof.
  intros Hname Hyears Hfresh newUser.
  assert (find (sameNameIgnoringCase name) (usersOf ls) = None) as Hfind.
  { destruct (find _ (usersOf ls)) as [u |] eqn:Hfind; [| reflexivity].
    apply find_some in Hfind as [Hin Hsame].
    apply String.eqb_eq in Hsame. now apply Hfresh in Hin. }
  assert (registerUser name (Num years) password ls =
    (Ok tt, {| item_users := Some (usersOf ls ++ [newUser]);
               item_stockPrices := item_stockPrices ls;
               item_currentUser := Some name |})) as Hrun.
  { unfold registerUser, bind, getUsers, ret.
    apply String.eqb_neq in Hname. rewrite Hname.
    apply Qltb_false in Hyears. rewrite Hyears. cbv beta iota.
    fold (usersOf ls). rewrite Hfind. reflexivity. }
  split; [exact Hrun |]. rewrite Hrun.
  unfold currentOf, getCurrentUserObject, bind, getCurrentUser, getUsers, ret.
  simpl. apply String.eqb_neq in Hname. rewrite Hname. simpl.
  apply find_app_fresh; [| apply String.eqb_refl].
  apply (find_none_weaken (sameNameIgnoringCase name)); [| exact Hfind].
  intros x Hx. apply String.eqb_eq in Hx. unfold sameNameIgnoringCase.
  rewrite Hx. apply String.eqb_refl.
Qed.

(** ** Registration, login and logout *)

Section Accounts.
Context `{Host}.

(** X1.  A registration with a username, an age of at least 13 and no
    stored username equal up to case is accepted: the new record (balance
    100000, no holdings, the password's hash) is appended after the stored
    records, which keep their positions, the price table is not touched,
    and the new user is the current user. *)
Theorem registerUser_accepts (name : string) (years : Q) (password : string)
    (ls : Storage) :
  name <> EmptyString ->
  13 <= years ->
  (forall u, In u (usersOf ls) -> toLowerCase (username u) <> toLowerCase name) ->
  let ls' := snd (registerUser name (Num years) password ls) in
  let newUser := {| username := name; age := years;
                    passwordHash := hashPassword password;
                    coins := 100000; portfolio := [] |} in
  fst (registerUser name (Num years) password ls) = Ok tt /\
  usersOf ls' = usersOf ls ++ [newUser] /\
  (forall j v, usersOf ls !! j = Some v -> usersOf ls' !! j = Some v) /\
  item_stockPrices ls' = item_stockPrices ls /\
  item_currentUser ls' = Some name /\
  currentOf ls' = Some newUser.
Proof.
  intros Hname Hyears Hfresh ls' newUser. subst ls'.
  destruct (registerUser_outcome name years password ls Hname Hyears Hfresh)
    as [Hrun Hcur].
  split; [now rewrite Hrun |].
  split; [now rewrite Hrun |].
  split; [| split; [now rewrite Hrun | split; [now rewrite Hrun | exact Hcur]]].
  intros j v Hv. rewrite Hrun. unfold usersOf at 1; simpl.
  now apply lookup_app_l_Some.
Qed.

(** X2.  Right after a registration, a login under any casing of the
    registered username succeeds exactly when the password has the hash of
    the registered one, and, accepted or not, it leaves storage as the
    registration left it. *)
Theorem login_after_register (name name' : string) (years : Q)
    (password password' : string) (ls : Storage) :
  name <> EmptyString ->
  13 <= years ->
  (forall u, In u (usersOf ls) -> toLowerCase (username u) <> toLowerCase name) ->
  toLowerCase name' = toLowerCase name ->
  let ls1 := snd (registerUser name (Num years) password ls) in
  (success (fst (loginUser name' password' ls1)) = true <->
     hashPassword password' = hashPassword password) /\
  snd (loginUser name' password' ls1) = ls1.
Proof.
  intros Hname Hyears Hfresh Hsame ls1. subst ls1.
  destruct (registerUser_outcome name years password ls Hname Hyears Hfresh)
    as [Hrun _].
  rewrite Hrun. simpl.
  unfold loginUser, bind, getUsers, ret. cbv beta iota. simpl.
  match goal with
  | |- context [find ?f (usersOf ls ++ [?u])] =>
      assert (find f (usersOf ls ++ [u]) = Some u) as ->
  end.
  { apply find_app_fresh.
    - destruct (find _ (usersOf ls)) as [u |] eqn:Hfind; [| reflexivity].
      apply find_some in Hfind as [Hin Hu]. apply String.eqb_eq in Hu.
      rewrite Hsame in Hu. now apply Hfresh in Hin.
    - unfold sameNameIgnoringCase. simpl. rewrite Hsame. apply String.eqb_refl. }
  simpl.
  destruct (String.eqb (hashPassword password') (hashPassword password)) eqn:Hhash;
    simpl.
  - apply String.eqb_eq in Hhash. tauto.
  - apply String.eqb_neq in Hhash. split; [| reflexivity].
    split; [discriminate | tauto].
Qed.

(** X3.  After [logout] there is no current user, the users list and the
    price table are what they were, and every ledger call (buy, revalue,
    sell) reports failure and writes nothing. *)
Theorem logout_ends_session (c : Call) (ls : Storage) :
  isLedgerCall c = true ->
  let out := snd (logout ls) in
  currentOf out = None /\
  usersOf out = usersOf ls /\
  pricesOf out = pricesOf ls /\
  perform c out = (false, out).
Proof.
  intros Hledger out.
  assert (currentOf out = None) as Hnone by (apply currentOf_none; now left).
  split; [exact Hnone |]. split; [reflexivity |]. split; [reflexivity |].
  destruct c as [name age pw | name pw | sym amount | rnd | rnd index];
    try discriminate Hledger; unfold perform.
  - unfold investCoins, bind. now rewrite getCurrentUserObject_reads, Hnone.
  - unfold updatePortfolio, bind. now rewrite getCurrentUserObject_reads, Hnone.
  - unfold sellInvestment, bind. now rewrite getCurrentUserObject_reads, Hnone.
Qed.

(** X4.  With a well-formed users list, the current user who logs out and
    logs in again, under any casing of the username and with a password of
    the stored hash, is accepted and finds storage exactly as it was
    before the logout: same record, balance and holdings. *)
Theorem login_after_logout (name password : string) (ls : Storage) (u : User) :
  usersWellFormed (usersOf ls) ->
  currentOf ls = Some u ->
  toLowerCase name = toLowerCase (username u) ->
  hashPassword password = passwordHash u ->
  loginUser name password (snd (logout ls)) = (Ok tt, ls).
Proof.
  intros Hwf Hcur Hsame Hhash.
  apply currentOf_some in Hcur as (Hmarker & _ & Hfind).
  apply find_some in Hfind as [Hin _].
  assert (find (sameNameIgnoringCase name) (usersOf ls) = Some u) as Hfound.
  { unfold sameNameIgnoringCase. rewrite Hsame.
    apply (find_unique_key (fun x => toLowerCase (username x)));
      [apply Hwf | exact Hin]. }
  unfold loginUser, logout, removeCurrentUser, bind, getUsers, ret.
  cbv beta iota. simpl. fold (usersOf ls). rewrite Hfound.
  rewrite Hhash, String.eqb_refl. simpl.
  destruct ls as [users prices marker]. simpl in *. now subst marker.
Qed.

(** X5.  [updateUser] overwrites in place: the number of users and the
    usernames in order stay the same, every record of another username
    stays where it is, the price table and the marker are not written; a
    record of that username being stored, the given record is stored
    afterwards; none being stored, storage is unchanged. *)
Theorem updateUser_in_place (u : User) (ls : Storage) :
  let ls' := snd (updateUser u ls) in
  length (usersOf ls') = length (usersOf ls) /\
  map username (usersOf ls') = map username (usersOf ls) /\
  (forall j v, usersOf ls !! j = Some v -> username v <> username u ->
     usersOf ls' !! j = Some v) /\
  item_stockPrices ls' = item_stockPrices ls /\
  item_currentUser ls' = item_currentUser ls /\
  ((exists v, In v (usersOf ls) /\ username v = username u) ->
     In u (usersOf ls')) /\
  ((forall v, In v (usersOf ls) -> username v <> username u) -> ls' = ls).
Proof.
  intros ls'. subst ls'.
  destruct (updateUser_frame u ls) as (Hnames & Hprices & Hmarker).
  split; [rewrite <- (length_map username), Hnames; apply length_map |].
  split; [exact Hnames |].
  unfold updateUser, bind, getUsers, saveUsers, ret. cbv beta iota zeta.
  fold (usersOf ls).
  destruct (findIndex _ (usersOf ls)) as [i |] eqn:Hi; simpl.
  - pose proof (findIndex_lookup _ _ _ Hi) as (y & Hy & Hname).
    apply String.eqb_eq in Hname.
    split; [| split; [reflexivity | split; [reflexivity | split]]].
    + intros j v Hv Hother. unfold usersOf at 1; simpl.
      rewrite list_lookup_insert_ne; [exact Hv |].
      intros ->. congruence.
    + intros _. unfold usersOf at 1; simpl.
      apply list_elem_of_In, list_elem_of_lookup. exists i.
      apply list_lookup_insert_eq. now apply lookup_lt_Some in Hy.
    + intros Hnone. exfalso. apply (Hnone y); [| exact Hname].
      apply list_elem_of_In, list_elem_of_lookup. eauto.
  - split; [auto |]. split; [reflexivity |]. split; [reflexivity |].
    split; [| reflexivity].
    intros (v & Hin & Hname). exfalso.
    destruct (find_is_some (fun x => String.eqb (username x) (username u))
                (usersOf ls) v Hin) as [w Hw].
    { rewrite Hname. apply String.eqb_refl. }
    destruct (find_findIndex _ _ _ Hw) as (i & Hi' & _). congruence.
Qed.

End Accounts.

(** ** More on the price oracle *)





(** ** More on the portfolio ledger *)

Lemma revalueFrom_frame (rnd : nat -> Q) (invs : list Holding) :
  forall (k : nat) (balance : Q) (ls : Storage),
    item_users (snd (revalueFrom rnd k balance invs ls)) = item_users ls /\
    item_currentUser (snd (revalueFrom rnd k balance invs ls))
      = item_currentUser ls.
Proof.
  induction invs as [| inv rest IH]; intros k balance ls; [split; reflexivity |].
  simpl. unfold revalue, bind, ret.
  pose proof (updateStockPrice_frame (rnd k) (symbol inv) ls) as [Hu Hm].
  destruct (updateStockPrice (rnd k) (symbol inv) ls) as [price ls1].
  simpl in Hu, Hm |- *.
  match goal with
  | |- context [revalueFrom rnd (S k) ?b rest ls1] =>
      destruct (IH (S k) b ls1) as [Hu2 Hm2];
      destruct (revalueFrom rnd (S k) b rest ls1) as [rs ls2]
  end.
  simpl in *. split; congruence.
Qed.


Lemma updateUser_same (ls : Storage) (user : User) :
  currentOf ls = Some user -> updateUser user ls = (tt, ls).
Proof.
  intros Hcur. apply currentOf_some in Hcur as (_ & _ & Hfind).
  destruct (find_findIndex _ _ _ Hfind) as (i & Hi & Hlookup & _).
  unfold updateUser, bind, getUsers, saveUsers, ret. cbv beta iota zeta.
  fold (usersOf ls). rewrite Hi. rewrite (list_insert_id _ _ _ Hlookup).
  destruct ls as [[users |] prices marker]; [reflexivity |].
  unfold usersOf in Hlookup; simpl in Hlookup. discriminate.
Qed.


(** X10.  A revaluation by a logged-in user without holdings succeeds and
    leaves storage exactly as it was: no price is drawn and the balance is
    not rounded. *)
Theorem updatePortfolio_no_holdings (rnd : nat -> Q) (ls : Storage)
    (user : User) :
  currentOf ls = Some user ->
  portfolio user = [] ->
  updatePortfolio rnd ls = (Ok tt, ls).
Proof.
  intros Hcur Hempty.
  unfold updatePortfolio, bind. rewrite getCurrentUserObject_reads, Hcur, Hempty.
  simpl.
  assert (withPortfolio (withCoins user (coins user)) [] = user) as ->.
  { destruct user as [n a h c p]. simpl in Hempty. subst p. reflexivity. }
  now rewrite (updateUser_same ls user Hcur).
Qed.




(** ** What the calls leave alone *)

Section Isolation.
Context `{Host}.

Lemma updateUser_others (u : User) (ls : Storage) (j : nat) (v : User) :
  usersOf ls !! j = Some v -> username v <> username u ->
  usersOf (snd (updateUser u ls)) !! j = Some v.
Proof.
  intros Hv Hother.
  unfold updateUser, bind, getUsers, saveUsers, ret. cbv beta iota zeta.
  fold (usersOf ls).
  destruct (findIndex _ (usersOf ls)) as [i |] eqn:Hi; simpl; [| exact Hv].
  apply findIndex_lookup in Hi as (y & Hy & Hname).
  apply String.eqb_eq in Hname. unfold usersOf at 1; simpl.
  rewrite list_lookup_insert_ne; [exact Hv |].
  intros ->. congruence.
Qed.

(** A ledger call either writes nothing or ends with [updateUser] on a
    record that carries the current user's username. *)
Lemma ledger_call_shape (c : Call) (ls : Storage) :
  isLedgerCall c = true ->
  snd (perform c ls) = ls \/
  exists (user u : User) (ls1 : Storage),
    currentOf ls = Some user /\ username u = username user /\
    passwordHash u = passwordHash user /\
    item_users ls1 = item_users ls /\
    item_currentUser ls1 = item_currentUser ls /\
    snd (perform c ls) = snd (updateUser u ls1).
Proof.
  intros Hledger.
  destruct c as [name age pw | name pw | sym amount | rnd | rnd index];
    try discriminate Hledger; unfold perform.
  - unfold investCoins, bind, ret. rewrite getCurrentUserObject_reads.
    destruct (currentOf ls) as [user |]; [| now left].
    destruct amount as [| a]; [now left |].
    destruct (Qle_bool a 0); [now left |].
    destruct (Qltb (coins user) a); [now left |].
    pose proof (getStockPrice_frame sym ls) as [Hu Hm].
    destruct (getStockPrice sym ls) as [price ls1]. simpl in Hu, Hm.
    right.
    match goal with
    | |- context [updateUser ?u ls1] =>
        exists user, u, ls1; destruct (updateUser u ls1)
    end.
    repeat split; assumption.
  - unfold updatePortfolio, bind, ret. rewrite getCurrentUserObject_reads.
    destruct (currentOf ls) as [user |]; [| now left].
    pose proof (revalueFrom_frame rnd (portfolio user) O (coins user) ls)
      as [Hu Hm].
    destruct (revalueFrom rnd O (coins user) (portfolio user) ls) as [r ls1].
    simpl in Hu, Hm.
    right.
    match goal with
    | |- context [updateUser ?u ls1] =>
        exists user, u, ls1; destruct (updateUser u ls1)
    end.
    repeat split; assumption.
  - unfold sellInvestment, bind, ret. rewrite getCurrentUserObject_reads.
    destruct (currentOf ls) as [user |]; [| now left].
    destruct (_ || _); [now left |].
    destruct (portfolio user !! Z.to_nat index) as [inv |]; [| now left].
    pose proof (updateStockPrice_frame rnd (symbol inv) ls) as [Hu Hm].
    destruct (updateStockPrice rnd (symbol inv) ls) as [price ls1].
    simpl in Hu, Hm.
    right.
    match goal with
    | |- context [updateUser ?u ls1] =>
        exists user, u, ls1; destruct (updateUser u ls1)
    end.
    repeat split; assumption.
Qed.

Lemma register_or_login_users (c : Call) (ls : Storage) :
  isLedgerCall c = false ->
  item_stockPrices (snd (perform c ls)) = item_stockPrices ls /\
  exists added, usersOf (snd (perform c ls)) = usersOf ls ++ added.
Proof.
  intros Hkind.
  destruct c as [name age pw | name pw | sym amount | rnd | rnd index];
    try discriminate Hkind; unfold perform.
  - unfold registerUser, bind, getUsers, ret.
    destruct (String.eqb name EmptyString);
      [split; [reflexivity | exists []; now rewrite app_nil_r] |].
    destruct age as [| years];
      [split; [reflexivity | exists []; now rewrite app_nil_r] |].
    destruct (Qltb years 13);
      [split; [reflexivity | exists []; now rewrite app_nil_r] |].
    cbv beta iota. fold (usersOf ls).
    destruct (find _ (usersOf ls));
      [split; [reflexivity | exists []; now rewrite app_nil_r] |].
    simpl. split; [reflexivity |]. eexists. reflexivity.
  - unfold loginUser, bind, getUsers, ret. cbv beta iota.
    destruct (find _ _) as [user |];
      [| split; [reflexivity | exists []; now rewrite app_nil_r]].
    destruct (negb _); simpl;
      split; try reflexivity; exists []; now rewrite app_nil_r.
Qed.

(** X12.  No call alters the record of another user: a stored record
    whose username is not the current user's is at the same position,
    unchanged, after any call. *)
Theorem other_users_untouched (c : Call) (ls : Storage) (j : nat) (v : User) :
  usersOf ls !! j = Some v ->
  (forall u, currentOf ls = Some u -> username v <> username u) ->
  usersOf (snd (perform c ls)) !! j = Some v.
Proof.
  intros Hv Hother.
  destruct (isLedgerCall c) eqn:Hkind.
  - destruct (ledger_call_shape c ls Hkind)
      as [-> | (user & u & ls1 & Hcur & Hname & _ & Hu & _ & ->)]; [exact Hv |].
    apply updateUser_others.
    + now rewrite (usersOf_ext ls ls1 Hu).
    + rewrite Hname. now apply Hother.
  - destruct (register_or_login_users c ls Hkind) as [_ [added ->]].
    now apply lookup_app_l_Some.
Qed.

(** X13.  The ledger calls (buy, revalue, sell) never change the session
    marker, nor the usernames stored and their order; register and login
    never write the price table, and never remove or reorder a record. *)
Theorem calls_keep_their_side (c : Call) (ls : Storage) :
  let ls' := snd (perform c ls) in
  (isLedgerCall c = true ->
     item_currentUser ls' = item_currentUser ls /\
     map username (usersOf ls') = map username (usersOf ls)) /\
  (isLedgerCall c = false ->
     item_stockPrices ls' = item_stockPrices ls /\
     exists added, usersOf ls' = usersOf ls ++ added).
Proof.
  intros ls'. subst ls'. split; [| apply register_or_login_users].
  intros Hkind.
  destruct (ledger_call_shape c ls Hkind)
    as [-> | (user & u & ls1 & _ & _ & _ & Hu & Hm & ->)]; [auto |].
  destruct (updateUser_frame u ls1) as (Hnames & _ & Hmarker).
  split; [congruence |].
  now rewrite Hnames, (usersOf_ext ls ls1 Hu).
Qed.

End Isolation.

(** ** Balances in hundredths *)




Section Cents.
Context `{Host}.


End Cents.



(** ** Storage reached from empty storage *)

Section Invariants.
Context `{Host}.












End Invariants.

(** ** Accounts are kept *)

Section Credentials.
Context `{Host}.

Lemma updateUser_stores (u : User) (ls : Storage) (v : User) :
  In v (usersOf ls) -> username v = username u ->
  In u (usersOf (snd (updateUser u ls))).
Proof.
  intros Hin Hname.
  destruct (find_is_some (fun x => String.eqb (username x) (username u))
              (usersOf ls) v Hin) as [w Hw].
  { rewrite Hname. apply String.eqb_refl. }
  destruct (find_findIndex _ _ _ Hw) as (i & Hi & Hlookup & _).
  unfold updateUser, bind, getUsers, saveUsers, ret. cbv beta iota zeta.
  fold (usersOf ls). rewrite Hi. simpl. unfold usersOf at 1; simpl.
  apply list_elem_of_In, list_elem_of_lookup. exists i.
  apply list_lookup_insert_eq. now apply lookup_lt_Some in Hlookup.
Qed.

Lemma same_name_same_record (l : list User) (a b : User) :
  List.NoDup (map username l) -> In a l -> In b l ->
  username a = username b -> a = b.
Proof.
  induction l as [| x l IH]; simpl; [intros _ [] |].
  intros Hnodup Ha Hb Hname. apply NoDup_cons_iff in Hnodup as [Hfresh Hrest].
  destruct Ha as [-> | Ha], Hb as [-> | Hb]; [reflexivity | | | auto].
  - exfalso. apply Hfresh. rewrite Hname. now apply in_map.
  - exfalso. apply Hfresh. rewrite <- Hname. now apply in_map.
Qed.

Lemma perform_keeps_credentials (c : Call) (ls : Storage) (name hash : string) :
  usersWellFormed (usersOf ls) ->
  (exists v, In v (usersOf ls) /\ username v = name /\ passwordHash v = hash) ->
  exists v, In v (usersOf (snd (perform c ls))) /\
            username v = name /\ passwordHash v = hash.
Proof.
  intros Hwf (v & Hin & Hname & Hhash).
  destruct (isLedgerCall c) eqn:Hkind.
  - destruct (ledger_call_shape c ls Hkind)
      as [-> | (user & u & ls1 & Hcur & Hu_name & Hu_hash & Hu & _ & ->)];
      [eauto |].
    pose proof (usersOf_ext ls ls1 Hu) as Husers.
    destruct (String.eqb (username v) (username u)) eqn:Hsame.
    + apply String.eqb_eq in Hsame. exists u.
      split; [apply (updateUser_stores u ls1 v); [now rewrite Husers | exact Hsame] |].
      apply currentOf_some in Hcur as (_ & _ & Hfind).
      apply find_some in Hfind as [Hin_user _].
      assert (v = user) as ->.
      { apply (same_name_same_record (usersOf ls)); try assumption.
        - now apply usersWellFormed_names.
        - congruence. }
      split; congruence.
    + apply String.eqb_neq in Hsame. exists v. split; [| auto].
      apply list_elem_of_In, list_elem_of_lookup in Hin as [j Hj].
      apply list_elem_of_In, list_elem_of_lookup. exists j.
      apply updateUser_others; [now rewrite Husers | exact Hsame].
  - destruct (register_or_login_users c ls Hkind) as [_ [added ->]].
    exists v. split; [apply in_or_app; now left | auto].
Qed.

(** X19.  An account is never lost and its password never changed: with
    a well-formed users list holding a record of username [name] and the
    hash of [password], a login with them (under any casing of the name)
    is accepted after any sequence of calls. *)
Theorem credentials_persist (calls : list Call) (ls : Storage)
    (name name' password : string) :
  storageWellFormed ls ->
  (exists v, In v (usersOf ls) /\ username v = name /\
             passwordHash v = hashPassword password) ->
  toLowerCase name' = toLowerCase name ->
  success (fst (loginUser name' password (performAll calls ls))) = true.
Proof.
  intros Hwf Hstored Hsame. revert ls Hwf Hstored.
  induction calls as [| c rest IH]; intros ls Hwf Hstored; simpl.
  - destruct Hstored as (v & Hin & Hname & Hhash).
    unfold loginUser, bind, getUsers, ret. cbv beta iota. fold (usersOf ls).
    assert (find (sameNameIgnoringCase name') (usersOf ls) = Some v) as ->.
    { unfold sameNameIgnoringCase. rewrite Hsame, <- Hname.
      apply (find_unique_key (fun x => toLowerCase (username x)));
        [apply Hwf | exact Hin]. }
    now rewrite Hhash, String.eqb_refl.
  - apply IH; [now apply perform_wellFormed |].
    apply perform_keeps_credentials; [apply Hwf | exact Hstored].
Qed.

End Credentials.

(** ** Prices and holdings agree *)





(** ** Rounding of the balance *)


(** ** The further properties, evaluated on the scenario *)

Lemma aliceRegistered_wellFormed : storageWellFormed aliceRegistered.
Proof.
  exact (perform_wellFormed (Register "alice" (Num 20) "pw") emptyStorage
           emptyStorage_wellFormed).
Qed.


Lemma registerUser_accepts_witness :
  "alice"%string <> EmptyString /\ 13 <= 20 /\
  (forall u, In u (usersOf emptyStorage) ->
     toLowerCase (username u) <> toLowerCase "alice") /\
  currentOf (snd (registerUser "alice" (Num 20) "pw" emptyStorage))
    = Some aliceRecord.
Proof.
  assert ("alice"%string <> EmptyString) as Hname by discriminate.
  assert (13 <= 20) as Hyears by (vm_compute; discriminate).
  assert (forall u, In u (usersOf emptyStorage) ->
            toLowerCase (username u) <> toLowerCase "alice") as Hfresh
    by (intros u []).
  split; [exact Hname |]. split; [exact Hyears |]. split; [exact Hfresh |].
  exact (proj2 (proj2 (proj2 (proj2 (proj2
    (registerUser_accepts "alice" 20 "pw" emptyStorage Hname Hyears Hfresh)))))).
Defined.

Lemma login_after_register_witness :
  "alice"%string <> EmptyString /\ 13 <= 20 /\
  (forall u, In u (usersOf emptyStorage) ->
     toLowerCase (username u) <> toLowerCase "alice") /\
  toLowerCase "ALICE" = toLowerCase "alice" /\
  success (fst (loginUser "ALICE" "pw" aliceRegistered)) = true /\
  snd (loginUser "ALICE" "pw" aliceRegistered) = aliceRegistered.
Proof.
  assert ("alice"%string <> EmptyString) as Hname by discriminate.
  assert (13 <= 20) as Hyears by (vm_compute; discriminate).
  assert (forall u, In u (usersOf emptyStorage) ->
            toLowerCase (username u) <> toLowerCase "alice") as Hfresh
    by (intros u []).
  assert (toLowerCase "ALICE" = toLowerCase "alice") as Hsame by reflexivity.
  split; [exact Hname |]. split; [exact Hyears |]. split; [exact Hfresh |].
  split; [exact Hsame |].
  destruct (login_after_register "alice" "ALICE" 20 "pw" "pw" emptyStorage
              Hname Hyears Hfresh Hsame) as [Hiff Hnoop].
  split; [exact (proj2 Hiff eq_refl) | exact Hnoop].
Defined.

Lemma logout_ends_session_witness :
  isLedgerCall (Buy "AAPL" (Num 10)) = true /\
  currentOf (snd (logout aliceInvested)) = None /\
  perform (Buy "AAPL" (Num 10)) (snd (logout aliceInvested))
    = (false, snd (logout aliceInvested)).
Proof.
  split; [reflexivity |].
  destruct (logout_ends_session (Buy "AAPL" (Num 10)) aliceInvested eq_refl)
    as (Hnone & _ & _ & Hfails).
  split; [exact Hnone | exact Hfails].
Defined.

Lemma login_after_logout_witness :
  usersWellFormed (usersOf aliceRegistered) /\
  currentOf aliceRegistered = Some aliceRecord /\
  toLowerCase "ALICE" = toLowerCase (username aliceRecord) /\
  hashPassword "pw" = passwordHash aliceRecord /\
  loginUser "ALICE" "pw" (snd (logout aliceRegistered))
    = (Ok tt, aliceRegistered).
Proof.
  assert (usersWellFormed (usersOf aliceRegistered)) as Hwf
    by apply aliceRegistered_wellFormed.
  assert (currentOf aliceRegistered = Some aliceRecord) as Hcur by reflexivity.
  assert (toLowerCase "ALICE" = toLowerCase (username aliceRecord)) as Hsame
    by reflexivity.
  assert (hashPassword "pw" = passwordHash aliceRecord) as Hhash by reflexivity.
  split; [exact Hwf |]. split; [exact Hcur |]. split; [exact Hsame |].
  split; [exact Hhash |].
  exact (login_after_logout "ALICE" "pw" aliceRegistered aliceRecord
           Hwf Hcur Hsame Hhash).
Defined.

Lemma updateUser_in_place_witness :
  (exists v, In v (usersOf aliceRegistered) /\
             username v = username aliceAfterBuy) /\
  In aliceAfterBuy (usersOf (snd (updateUser aliceAfterBuy aliceRegistered))) /\
  length (usersOf (snd (updateUser aliceAfterBuy aliceRegistered))) = 1%nat.
Proof.
  assert (exists v, In v (usersOf aliceRegistered) /\
                    username v = username aliceAfterBuy) as Hstored
    by (exists aliceRecord; split; [left; reflexivity | reflexivity]).
  destruct (updateUser_in_place aliceAfterBuy aliceRegistered)
    as (Hlength & _ & _ & _ & _ & Hin & _).
  split; [exact Hstored |]. split; [exact (Hin Hstored) | exact Hlength].
Defined.





Lemma updatePortfolio_no_holdings_witness :
  currentOf aliceRegistered = Some aliceRecord /\
  portfolio aliceRecord = [] /\
  updatePortfolio (fun _ => 0.5) aliceRegistered = (Ok tt, aliceRegistered).
Proof.
  split; [reflexivity |]. split; [reflexivity |].
  exact (updatePortfolio_no_holdings (fun _ => 0.5) aliceRegistered aliceRecord
           eq_refl eq_refl).
Defined.


Lemma other_users_untouched_witness :
  usersOf bobJoined !! O = Some aliceAfterBuy /\
  (forall u, currentOf bobJoined = Some u ->
     username aliceAfterBuy <> username u) /\
  usersOf (snd (perform (Buy "TSLA" (Num 500)) bobJoined)) !! O
    = Some aliceAfterBuy.
Proof.
  assert (usersOf bobJoined !! O = Some aliceAfterBuy) as Hstored
    by (vm_compute; reflexivity).
  assert (forall u, currentOf bobJoined = Some u ->
            username aliceAfterBuy <> username u) as Hother.
  { intros u Hu. vm_compute in Hu. injection Hu as <-. discriminate. }
  split; [exact Hstored |]. split; [exact Hother |].
  exact (other_users_untouched (Buy "TSLA" (Num 500)) bobJoined O
           aliceAfterBuy Hstored Hother).
Defined.

Lemma calls_keep_their_side_witness :
  isLedgerCall (Buy "AAPL" (Num 1000)) = true /\
  item_currentUser (snd (perform (Buy "AAPL" (Num 1000)) aliceRegistered))
    = item_currentUser aliceRegistered.
Proof.
  split; [reflexivity |].
  exact (proj1 (proj1 (calls_keep_their_side (Buy "AAPL" (Num 1000))
                         aliceRegistered) eq_refl)).
Defined.






Lemma credentials_persist_witness :
  storageWellFormed aliceRegistered /\
  (exists v, In v (usersOf aliceRegistered) /\ username v = "alice"%string /\
             passwordHash v = hashPassword "pw") /\
  toLowerCase "ALICE" = toLowerCase "alice" /\
  success (fst (loginUser "ALICE" "pw"
                  (performAll [Buy "AAPL" (Num 1000); RevalueAll (fun _ => 0)]
                     aliceRegistered))) = true.
Proof.
  assert (exists v, In v (usersOf aliceRegistered) /\
                    username v = "alice"%string /\
                    passwordHash v = hashPassword "pw") as Hstored
    by (exists aliceRecord; split; [left; reflexivity | split; reflexivity]).
  assert (toLowerCase "ALICE" = toLowerCase "alice") as Hsame by reflexivity.
  split; [exact aliceRegistered_wellFormed |]. split; [exact Hstored |].
  split; [exact Hsame |].
  exact (credentials_persist [Buy "AAPL" (Num 1000); RevalueAll (fun _ => 0)]
           aliceRegistered "alice" "ALICE" "pw"
           aliceRegistered_wellFormed Hstored Hsame).
Defined.



